(** * The chat endpoint of "The Infinite Scroll" backend (src/main.py)

    A shallow embedding of [maybe_slip], [chat] and the diagnostic
    endpoint [test_database], together with the pieces of the Python
    runtime they call.

    Conventions of the model.
    - A Python [str] is a Rocq [string] holding its UTF-8 bytes.  The
      [str] methods the handlers call ([lower], [strip], [title] and
      slicing) follow the interpreter's Unicode tables, which are not
      part of the sources: the handlers take them as a parameter
      ([PyStr]) that is only known to act on ASCII text as the
      functions of [Str] do.  The instance [ascii_only] runs the
      handlers on ASCII requests.
    - A Python [float] is modelled by its exact rational value ([Q]).
      The float literals [0.02] and [0.05] denote the binary64 numbers
      nearest to them and are written out as such.
    - The global random generator, the wall clock and the document store
      are threaded through the handler as an explicit [World]. *)

From Stdlib Require Import Ascii QArith Qround.
From stdpp Require Import pretty gmap strings list fin_maps.

(** ** The [str] methods on ASCII text

    What [lower], [strip], [title], [capitalize] and slicing do to a
    text made of ASCII characters only. *)

Module Str.

Definition code (c : ascii) : nat := nat_of_ascii c.

Definition is_upper (c : ascii) : bool :=
  (65 <=? code c)%nat && (code c <=? 90)%nat.

Definition is_lower (c : ascii) : bool :=
  (97 <=? code c)%nat && (code c <=? 122)%nat.

(** [str.isspace] on one ASCII character: TAB, LF, VT, FF, CR, the four
    separators FS, GS, RS, US, and the space. *)
Definition is_space (c : ascii) : bool :=
  ((9 <=? code c)%nat && (code c <=? 13)%nat)
  || ((28 <=? code c)%nat && (code c <=? 31)%nat)
  || (code c =? 32)%nat.

Definition is_cased (c : ascii) : bool := is_upper c || is_lower c.

Definition lower_char (c : ascii) : ascii :=
  if is_upper c then ascii_of_nat (code c + 32) else c.

Definition upper_char (c : ascii) : ascii :=
  if is_lower c then ascii_of_nat (code c - 32) else c.

(** [s.lower()] *)
Fixpoint lower (s : string) : string :=
  match s with
  | EmptyString => EmptyString
  | String c s' => String (lower_char c) (lower s')
  end.

Fixpoint lstrip (s : string) : string :=
  match s with
  | EmptyString => EmptyString
  | String c s' => if is_space c then lstrip s' else s
  end.

Fixpoint rstrip (s : string) : string :=
  match s with
  | EmptyString => EmptyString
  | String c s' =>
      match rstrip s' with
      | EmptyString => if is_space c then EmptyString else String c EmptyString
      | r => String c r
      end
  end.

(** [s.strip()] *)
Definition strip (s : string) : string := rstrip (lstrip s).

(** [s.title()]: a character that follows a cased character is
    lower-cased, any other character is upper-cased. *)
Fixpoint title_from (previous_is_cased : bool) (s : string) : string :=
  match s with
  | EmptyString => EmptyString
  | String c s' =>
      String (if previous_is_cased then lower_char c else upper_char c)
             (title_from (is_cased c) s')
  end.

Definition title (s : string) : string := title_from false s.

(** [s.capitalize()]: the first character upper-cased, the others
    lower-cased. *)
Definition capitalize (s : string) : string :=
  match s with
  | EmptyString => EmptyString
  | String c s' => String (upper_char c) (lower s')
  end.

(** [s[:n]] *)
Fixpoint take (n : nat) (s : string) : string :=
  match n, s with
  | S n', String c s' => String c (take n' s')
  | _, _ => EmptyString
  end.

End Str.

(** Whether a text is made of ASCII characters only. *)
Fixpoint is_ascii (s : string) : bool :=
  match s with
  | EmptyString => true
  | String c s' => (Str.code c <? 128)%nat && is_ascii s'
  end.

(** ** The [str] methods of the interpreter

    The four methods as the handlers call them, on any text.  Beyond
    ASCII they are left open; on ASCII text they are the functions of
    [Str]. *)
Class PyStr : Type :=
  { lower : string → string;
    strip : string → string;
    title : string → string;
    first_chars : nat → string → string;
    lower_ascii : ∀ s, is_ascii s = true → lower s = Str.lower s;
    strip_ascii : ∀ s, is_ascii s = true → strip s = Str.strip s;
    title_ascii : ∀ s, is_ascii s = true → title s = Str.title s;
    first_chars_ascii :
      ∀ n s, is_ascii s = true → first_chars n s = Str.take n s }.

(** The methods cut down to their ASCII case, to run the handlers on
    ASCII requests. *)
Definition ascii_only : PyStr :=
  {| lower := Str.lower;
     strip := Str.strip;
     title := Str.title;
     first_chars := Str.take;
     lower_ascii := λ _ _, eq_refl;
     strip_ascii := λ _ _, eq_refl;
     title_ascii := λ _ _, eq_refl;
     first_chars_ascii := λ _ _ _, eq_refl |}.

(** Truthiness of an [Optional[str]]: [None] and [""] are falsy. *)
Definition truthy (x : option string) : bool :=
  match x with
  | Some (String _ _) => true
  | Some EmptyString | None => false
  end.

(** [x or d] for an [Optional[str]] [x] and a [str] [d]. *)
Definition str_or (x : option string) (d : string) : string :=
  match x with
  | Some s => if truthy x then s else d
  | None => d
  end.

(** [x or None] for an [Optional[str]] [x]. *)
Definition str_or_None (x : option string) : option string :=
  if truthy x then x else None.

(** ** Floats as exact rationals *)

Definition Qltb (x y : Q) : bool :=
  (Qnum x * Zpos (Qden y) <? Qnum y * Zpos (Qden x))%Z.

(** The binary64 value of the literal [0.02]. *)
Definition float_0_02 : Q := 5764607523034235 # 288230376151711744.

(** The binary64 value of the literal [0.05]. *)
Definition float_0_05 : Q := 3602879701896397 # 72057594037927936.

(** [x or 0.0] for an [Optional[float]]: [None] and zero give [0.0]. *)
Definition float_or_zero (x : option Q) : Q :=
  match x with
  | Some d => if Qeq_bool d 0 then 0%Q else d
  | None => 0%Q
  end.

(** [x % m] for a float [x] and a positive integer [m]; the remainder of
    a non-negative float is exact. *)
Definition float_mod (x : Q) (m : positive) : Q :=
  (Qnum x mod (Zpos m * Zpos (Qden x)))%Z # Qden x.

(** [int(x)]: truncation towards zero. *)
Definition int_of_float (x : Q) : Z := (Qnum x ÷ Zpos (Qden x))%Z.

(** ** Outcomes, the world and the handler monad *)

(** The outcome of a call that may raise. *)
Inductive result (A : Type) : Type :=
  | Ok (a : A)
  | Raise.
Arguments Ok {A} a.
Arguments Raise {A}.

(** The global generator of the [random] module: an arbitrary tape of
    raw words and a read position.  Every draw reads one word. *)
Record Rng : Type := { tape : nat → N; pos : nat }.

Definition next_word (g : Rng) : N := tape g (pos g).

Definition advance (g : Rng) : Rng := {| tape := tape g; pos := S (pos g) |}.

(** The world a request is served in: the generator, the reading of the
    wall clock (seconds since the epoch) and the state of the store. *)
Record World (S : Type) : Type :=
  { rng : Rng; clock : Q; store : S }.
Arguments rng {S} w.
Arguments clock {S} w.
Arguments store {S} w.

Definition M (S A : Type) : Type := World S → result A * World S.

Definition ret {S A} (a : A) : M S A := λ w, (Ok a, w).

Definition bind {S A B} (c : M S A) (k : A → M S B) : M S B :=
  λ w, match c w with
       | (Ok a, w') => k a w'
       | (Raise, w') => (Raise, w')
       end.

Notation "'let*' x ':=' c 'in' k" := (bind c (λ x, k))
  (at level 10, x name, c at level 100, k at level 200).

(** [try: body except Exception: handler] *)
Definition try_except {S A} (body handler : M S A) : M S A :=
  λ w, match body w with
       | (Ok a, w') => (Ok a, w')
       | (Raise, w') => handler w'
       end.

Definition with_rng {S A} (f : Rng → A * Rng) : M S A :=
  λ w, let (a, g) := f (rng w) in
       (Ok a, {| rng := g; clock := clock w; store := store w |}).

(** The float the next word yields: a 53-bit integer scaled by 2^-53. *)
Definition draw (g : Rng) : Q :=
  Z.of_N (next_word g mod 9007199254740992) # 9007199254740992.

(** The index below [n] the next word yields. *)
Definition randbelow (n : nat) (g : Rng) : nat :=
  N.to_nat (next_word g mod N.of_nat n).

(** [random.random()], in [0, 1). *)
Definition random {S} : M S Q :=
  with_rng (λ g, (draw g, advance g)).

(** [random.choice(seq)]: [seq[randbelow(len(seq))]]; an empty sequence
    raises [IndexError]. *)
Definition choice {S A} (seq : list A) : M S A :=
  match seq with
  | [] => λ w, (Raise, w)
  | x :: _ => with_rng (λ g, (nth (randbelow (length seq) g) seq x, advance g))
  end.

(** [time.time()] *)
Definition time {S} : M S Q := λ w, (Ok (clock w), w).

(** ** The schemas (src/schemas.py) and the API models *)

Module ChatMessage.
Record t : Type :=
  { username : string;
    content : string;
    season : string;
    depth : Q;
    thread_id : option string }.
End ChatMessage.

Module ChatRequest.
Record t : Type :=
  { message : string;
    season : option string;
    depth : option Q;
    username : option string;
    thread_id : option string }.
End ChatRequest.

Module ChatResponse.
Record t : Type :=
  { reply : string;
    slip : bool;
    season : option string;
    page_number : Z }.
End ChatResponse.

(** ** The store adapter (module [database], imported by src/main.py)

    The handler only relies on the two operations; each may raise and
    may change the store. *)
Class Database (S : Type) : Type :=
  { create_document : string → ChatMessage.t → S → result string * S;
    get_documents :
      string → gmap string (option string) → S → result (list ChatMessage.t) * S }.

Definition with_store {S A} (f : S → result A * S) : M S A :=
  λ w, let (r, s) := f (store w) in
       (r, {| rng := rng w; clock := clock w; store := s |}).

(** ** The chat endpoint *)

Definition nl : string := String (ascii_of_nat 10) EmptyString.

Definition SURFACE_VOICE : list string :=
  [ "Thanks for stopping by. What can I show you?";
    "Happy you're here. Which book are you curious about?";
    "Welcome. We can wander the seasons together.";
    "I can open a page, or we can just talk about stories." ].

Definition SUBSURFACE_WHISPERS : list string :=
  [ "This river feels familiar. I used to stand near one.";
    "Winter makes it harder to pretend.";
    "If you hear a page echo twice, don’t worry. That’s just me.";
    "The other Patrick is… doing fine. I think." ].

Definition SEASON_TEMPOS : gmap string string :=
  {[ "spring" := "warm and steady";
     "summer" := "expansive and shimmering";
     "autumn" := "playful and cosmic";
     "winter" := "quiet and precise" ]}.

Definition maybe_slip {S} (season : option string) : M S bool :=
  let base := float_0_02 in
  let base := if bool_decide (season = Some "winter") then float_0_05 else base in
  let* r := random in
  ret (Qltb r base).

Definition chat `{PyStr} {S} `{Database S} (req : ChatRequest.t)
  : M S ChatResponse.t :=
  let season := lower (str_or (ChatRequest.season req) "spring") in
  let tempo := default "warm and steady" (SEASON_TEMPOS !! season) in
  let* slip := maybe_slip (Some season) in
  let* surface :=
    if bool_decide (lower (strip (ChatRequest.message req))
                      ∈ ({[ "hi"; "hello"; "hey" ]} : gset string))
    then ret "Hello. I’m Gary. I’ll guide you."
    else choice SURFACE_VOICE in
  let reply :=
    surface +:+ nl +:+ nl +:+ "In " +:+ title season +:+ ", my pace is "
            +:+ tempo +:+ "." in
  let* reply :=
    if slip
    then let* whisper := choice SUBSURFACE_WHISPERS in
         ret (reply +:+ nl +:+ nl +:+ whisper)
    else ret reply in
  let* page_number :=
    try_except
      (let doc :=
         {| ChatMessage.username := str_or (ChatRequest.username req) "visitor";
            ChatMessage.content := ChatRequest.message req;
            ChatMessage.season := season;
            ChatMessage.depth := float_or_zero (ChatRequest.depth req);
            ChatMessage.thread_id := str_or_None (ChatRequest.thread_id req) |} in
       let* _id := with_store (create_document "chatmessage" doc) in
       let* msgs :=
         if truthy (ChatRequest.thread_id req)
         then with_store
                (get_documents "chatmessage"
                   {[ "thread_id" := ChatRequest.thread_id req ]})
         else ret [] in
       ret (Z.of_nat (length msgs) + 1)%Z)
      (let* t := time in
       ret (int_of_float (float_mod t 7) + 1)%Z) in
  ret {| ChatResponse.reply := reply;
         ChatResponse.slip := slip;
         ChatResponse.season := Some season;
         ChatResponse.page_number := page_number |}.

(** ** A document store

    Modelled from the spec: the module [database] behind
    [create_document] and [get_documents] is not among the sources.  The
    spec describes an opaque document store with a "create document" and
    a "query documents by filter" operation, either of which fails when
    the store is unavailable.  The model keeps, for every collection, the
    documents in insertion order; a query returns the documents of the
    collection whose fields equal the values of the filter. *)

Record MemStore : Type :=
  { available : bool;
    collections : gmap string (list ChatMessage.t) }.

Definition documents (name : string) (s : MemStore) : list ChatMessage.t :=
  default [] (collections s !! name).

(** Whether field [k] of the document equals the filter value [v]; a
    field the document does not have compares as null. *)
Definition field_matches (d : ChatMessage.t) (k : string) (v : option string) : bool :=
  if String.eqb k "username" then bool_decide (v = Some (ChatMessage.username d))
  else if String.eqb k "content" then bool_decide (v = Some (ChatMessage.content d))
  else if String.eqb k "season" then bool_decide (v = Some (ChatMessage.season d))
  else if String.eqb k "thread_id" then bool_decide (v = ChatMessage.thread_id d)
  else if String.eqb k "depth" then false
  else bool_decide (v = None).

Definition matches (flt : gmap string (option string)) (d : ChatMessage.t) : bool :=
  forallb (λ kv, field_matches d kv.1 kv.2) (map_to_list flt).

Definition mem_create (name : string) (d : ChatMessage.t) (s : MemStore)
  : result string * MemStore :=
  if available s
  then (Ok (name +:+ "/" +:+ pretty (length (documents name s))),
        {| available := true;
           collections := <[ name := (documents name s ++ [d])%list ]> (collections s) |})
  else (Raise, s).

Definition mem_query (name : string) (flt : gmap string (option string)) (s : MemStore)
  : result (list ChatMessage.t) * MemStore :=
  if available s
  then (Ok (List.filter (matches flt) (documents name s)), s)
  else (Raise, s).

#[export] Instance MemStore_Database : Database MemStore :=
  {| create_document := mem_create; get_documents := mem_query |}.

(** ** The handler as a function of its draws

    [chat] reads the generator one to three times, the store once or
    twice and the clock at most once.  The definitions below name what
    it computes from them; [chat_eq] shows that this is what [chat]
    returns. *)

Definition GREETING : string := "Hello. I’m Gary. I’ll guide you.".

Definition greets `{PyStr} (message : string) : bool :=
  bool_decide (lower (strip message) ∈ ({[ "hi"; "hello"; "hey" ]} : gset string)).

Definition season_of `{PyStr} (req : ChatRequest.t) : string :=
  lower (str_or (ChatRequest.season req) "spring").

Definition tempo_of (season : string) : string :=
  default "warm and steady" (SEASON_TEMPOS !! season).

Definition base_of (season : string) : Q :=
  if bool_decide (Some season = Some "winter") then float_0_05 else float_0_02.

Definition slip_of `{PyStr} (req : ChatRequest.t) (g : Rng) : bool :=
  Qltb (draw g) (base_of (season_of req)).

Definition pick (seq : list string) (g : Rng) : string :=
  nth (randbelow (length seq) g) seq (hd "" seq).

Definition surface_of `{PyStr} (req : ChatRequest.t) (g : Rng) : string :=
  if greets (ChatRequest.message req) then GREETING
  else pick SURFACE_VOICE (advance g).

(** The generator once the surface line is chosen. *)
Definition rng_surface `{PyStr} (req : ChatRequest.t) (g : Rng) : Rng :=
  if greets (ChatRequest.message req) then advance g else advance (advance g).

Definition whisper_of `{PyStr} (req : ChatRequest.t) (g : Rng) : string :=
  pick SUBSURFACE_WHISPERS (rng_surface req g).

Definition pace_of `{PyStr} (req : ChatRequest.t) : string :=
  "In " +:+ title (season_of req) +:+ ", my pace is "
        +:+ tempo_of (season_of req) +:+ ".".

Definition reply_of `{PyStr} (req : ChatRequest.t) (g : Rng) : string :=
  let reply := surface_of req g +:+ nl +:+ nl +:+ pace_of req in
  if slip_of req g then reply +:+ nl +:+ nl +:+ whisper_of req g else reply.

Definition rng_of `{PyStr} (req : ChatRequest.t) (g : Rng) : Rng :=
  if slip_of req g then advance (rng_surface req g) else rng_surface req g.

(** The record handed to [create_document]. *)
Definition doc_of `{PyStr} (req : ChatRequest.t) : ChatMessage.t :=
  {| ChatMessage.username := str_or (ChatRequest.username req) "visitor";
     ChatMessage.content := ChatRequest.message req;
     ChatMessage.season := season_of req;
     ChatMessage.depth := float_or_zero (ChatRequest.depth req);
     ChatMessage.thread_id := str_or_None (ChatRequest.thread_id req) |}.

Definition fallback_page (now : Q) : Z := (int_of_float (float_mod now 7) + 1)%Z.

(** The page number and the store the try block and its handler leave. *)
Definition persist `{PyStr} {S} `{Database S} (req : ChatRequest.t) (now : Q) (s : S)
  : Z * S :=
  match create_document "chatmessage" (doc_of req) s with
  | (Ok _, s1) =>
      if truthy (ChatRequest.thread_id req)
      then match get_documents "chatmessage"
                   {[ "thread_id" := ChatRequest.thread_id req ]} s1 with
           | (Ok msgs, s2) => ((Z.of_nat (length msgs) + 1)%Z, s2)
           | (Raise, s2) => (fallback_page now, s2)
           end
      else (1%Z, s1)
  | (Raise, s1) => (fallback_page now, s1)
  end.

(** The first line of a text: what precedes its first line feed. *)
Fixpoint first_line (s : string) : string :=
  match s with
  | EmptyString => EmptyString
  | String c s' =>
      if Ascii.eqb c (ascii_of_nat 10) then EmptyString
      else String c (first_line s')
  end.

(** The tempo table in the words of the spec. *)
Definition tempo_spec (season : string) : string :=
  if String.eqb season "spring" then "warm and steady"
  else if String.eqb season "summer" then "expansive and shimmering"
  else if String.eqb season "autumn" then "playful and cosmic"
  else if String.eqb season "winter" then "quiet and precise"
  else "warm and steady".

(** A request with only its message set. *)
Definition say (message : string) : ChatRequest.t :=
  {| ChatRequest.message := message;
     ChatRequest.season := None;
     ChatRequest.depth := None;
     ChatRequest.username := None;
     ChatRequest.thread_id := None |}.

(** A generator whose every word is [k]. *)
Definition constant_rng (k : N) : Rng := {| tape := λ _, k; pos := 0 |}.

(** A world with an empty, reachable store. *)
Definition fresh_world (k : N) (now : Q) : World MemStore :=
  {| rng := constant_rng k;
     clock := now;
     store := {| available := true; collections := ∅ |} |}.

(** A world whose store is down. *)
Definition offline_world (k : N) (now : Q) : World MemStore :=
  {| rng := constant_rng k;
     clock := now;
     store := {| available := false; collections := ∅ |} |}.

(** Whether a text consists of white space only. *)
Fixpoint blank (s : string) : bool :=
  match s with
  | EmptyString => true
  | String c s' => Str.is_space c && blank s'
  end.

(** The request with another message, or another season. *)
Definition with_message (m : string) (req : ChatRequest.t) : ChatRequest.t :=
  {| ChatRequest.message := m;
     ChatRequest.season := ChatRequest.season req;
     ChatRequest.depth := ChatRequest.depth req;
     ChatRequest.username := ChatRequest.username req;
     ChatRequest.thread_id := ChatRequest.thread_id req |}.

Definition with_season (s : option string) (req : ChatRequest.t) : ChatRequest.t :=
  {| ChatRequest.message := ChatRequest.message req;
     ChatRequest.season := s;
     ChatRequest.depth := ChatRequest.depth req;
     ChatRequest.username := ChatRequest.username req;
     ChatRequest.thread_id := ChatRequest.thread_id req |}.

(** ** The diagnostic endpoint

    [test_database] fills a dict of six entries while probing the global
    [db] handle, then reads two environment variables.  Exceptions carry
    their text here, since the handlers report [str(e)[:50]]. *)

(** The outcome of a call whose exception text matters. *)
Inductive attempt (A : Type) : Type :=
  | Returns (a : A)
  | Raises (e : string).
Arguments Returns {A} a.
Arguments Raises {A} e.

(** What looking up an attribute of an object does: [AttributeError],
    a value, or another exception. *)
Inductive attribute : Type :=
  | Missing
  | Present (v : string)
  | Failing (e : string).

(** The handle [db] as far as [test_database] uses it. *)
Record Db : Type :=
  { db_name : attribute;
    list_collection_names : attempt (list string) }.

(** The values the response dict holds. *)
Inductive Value : Type :=
  | VNone
  | VStr (s : string)
  | VList (l : list string).

(** Statements over the response dict, which keeps what was assigned
    before an exception. *)
Definition Stmt (A : Type) : Type :=
  gmap string Value → attempt A * gmap string Value.

#[export] Instance Stmt_ret : MRet Stmt := λ A a r, (Returns a, r).

#[export] Instance Stmt_bind : MBind Stmt :=
  λ A B k c r,
    match c r with
    | (Returns a, r') => k a r'
    | (Raises e, r') => (Raises e, r')
    end.

(** [response[k] = v] *)
Definition setitem (k : string) (v : Value) : Stmt unit :=
  λ r, (Returns tt, <[ k := v ]> r).

Definition lift {A} (x : attempt A) : Stmt A := λ r, (x, r).

(** [try: body except Exception as e: handler(e)] *)
Definition try_as {A} (body : Stmt A) (handler : string → Stmt A) : Stmt A :=
  λ r, match body r with
       | (Returns a, r') => (Returns a, r')
       | (Raises e, r') => handler e r'
       end.

(** [db.name if hasattr(db, "name") else "✅ Connected"]: [hasattr]
    answers [False] on [AttributeError] and lets other exceptions
    through. *)
Definition name_or_connected (db : Db) : attempt Value :=
  match db_name db with
  | Present v => Returns (VStr v)
  | Missing => Returns (VStr "✅ Connected")
  | Failing e => Raises e
  end.

(** [os.getenv(k)] as a condition: unset and empty are falsy. *)
Definition getenv (env : gmap string string) (k : string) : bool :=
  truthy (env !! k).

Definition test_database `{PyStr} (db : option Db) (env : gmap string string)
  : attempt (gmap string Value) :=
  let response : gmap string Value :=
    {[ "backend" := VStr "✅ Running";
       "database" := VStr "❌ Not Available";
       "database_url" := VNone;
       "database_name" := VNone;
       "connection_status" := VStr "Not Connected";
       "collections" := VList [] ]} in
  let run : Stmt unit :=
    try_as
      (match db with
       | Some db =>
           setitem "database" (VStr "✅ Available");;
           setitem "database_url" (VStr "✅ Configured");;
           name ← lift (name_or_connected db);
           setitem "database_name" name;;
           setitem "connection_status" (VStr "Connected");;
           try_as
             (collections ← lift (list_collection_names db);
              setitem "collections" (VList (take 10 collections));;
              setitem "database" (VStr "✅ Connected & Working"))
             (λ e, setitem "database"
                     (VStr ("⚠️  Connected but Error: " +:+ first_chars 50 e)))
       | None => setitem "database" (VStr "⚠️  Available but not initialized")
       end)
      (λ e, setitem "database" (VStr ("❌ Error: " +:+ first_chars 50 e)));;
    setitem "database_url"
      (VStr (if getenv env "DATABASE_URL" then "✅ Set" else "❌ Not Set"));;
    setitem "database_name"
      (VStr (if getenv env "DATABASE_NAME" then "✅ Set" else "❌ Not Set")) in
  match run response with
  | (Returns _, response) => Returns response
  | (Raises e, _) => Raises e
  end.


(** * Properties *)


Lemma chat_eq `{PyStr} {S} `{Database S} (req : ChatRequest.t) (w : World S) :
  chat req w =
    (Ok {| ChatResponse.reply := reply_of req (rng w);
           ChatResponse.slip := slip_of req (rng w);
           ChatResponse.season := Some (season_of req);
           ChatResponse.page_number := (persist req (clock w) (store w)).1 |},
     {| rng := rng_of req (rng w);
        clock := clock w;
        store := (persist req (clock w) (store w)).2 |}).
Proof.
  destruct w as [g now s].
  unfold chat, persist, fallback_page, reply_of, rng_of, whisper_of, surface_of,
    rng_surface, pace_of, pick, slip_of, maybe_slip, base_of, greets, GREETING.
  fold (season_of req). fold (doc_of req).
  unfold bind, ret, random, choice, time, try_except, with_rng, with_store; cbn.
  set (b := Qltb _ _). set (gr := bool_decide (_ ∈ _)).
  destruct (create_document _ _ s) as [[id|] s1] eqn:Hc;
    [destruct (truthy (ChatRequest.thread_id req));
      [destruct (get_documents _ _ s1) as [[msgs|] s2] eqn:Hq|]|];
    destruct gr; cbn; destruct b; cbn; rewrite ?Hc; cbn; rewrite ?Hq; reflexivity.
Qed.

(** ** Strings *)

Lemma first_line_app (s r : string) :
  first_line s = s → first_line (s +:+ nl +:+ r) = s.
Proof.
  induction s as [|c s IH]; [done|].
  change (String c s +:+ nl +:+ r) with (String c (s +:+ nl +:+ r)).
  cbn [first_line]. destruct (Ascii.eqb c _); [done|].
  intros [= Hs]. f_equal. by apply IH.
Qed.

Lemma lower_char_not_upper (c : ascii) : Str.is_upper (Str.lower_char c) = false.
Proof. by destruct c as [[] [] [] [] [] [] [] []]. Qed.

Lemma lower_char_idem (c : ascii) :
  Str.lower_char (Str.lower_char c) = Str.lower_char c.
Proof.
  unfold Str.lower_char at 1. by rewrite lower_char_not_upper.
Qed.

Lemma lower_idem (s : string) : Str.lower (Str.lower s) = Str.lower s.
Proof.
  induction s as [|c s IH]; cbn; [done|]. by rewrite lower_char_idem, IH.
Qed.

Lemma lower_no_upper (s : string) (c : ascii) :
  In c (Stdlib.Strings.String.list_ascii_of_string (Str.lower s)) → Str.is_upper c = false.
Proof.
  induction s as [|x s IH]; cbn; [done|].
  intros [<-|Hin]; [apply lower_char_not_upper|by apply IH].
Qed.

Lemma length_append (s r : string) :
  String.length (s +:+ r) = String.length s + String.length r.
Proof.
  induction s as [|c s IH]; [done|].
  change (String c s +:+ r) with (String c (s +:+ r)). cbn. by rewrite IH.
Qed.

Lemma append_ne (s r : string) : r ≠ "" → s +:+ r ≠ s.
Proof.
  intros Hr Heq. apply (f_equal String.length) in Heq.
  rewrite length_append in Heq. destruct r; [done|]. cbn in Heq. lia.
Qed.

Lemma append_assoc (a b c : string) : (a +:+ b) +:+ c = a +:+ b +:+ c.
Proof.
  induction a as [|x a IH]; [done|].
  change (String x a +:+ b) with (String x (a +:+ b)).
  change (String x (a +:+ b) +:+ c) with (String x ((a +:+ b) +:+ c)).
  by rewrite IH.
Qed.

Lemma append_empty_r (a : string) : a +:+ "" = a.
Proof.
  induction a as [|x a IH]; [done|].
  change (String x a +:+ "") with (String x (a +:+ "")). by rewrite IH.
Qed.

Lemma append_cons (c : ascii) (a b : string) : String c a +:+ b = String c (a +:+ b).
Proof. reflexivity. Qed.

(** ** White space and letter case, on ASCII text *)

Lemma lstrip_blank (s : string) : blank s = true → Str.lstrip s = "".
Proof.
  induction s as [|c s IH]; cbn; [done|].
  intros [Hc Hs]%andb_prop. rewrite Hc. by apply IH.
Qed.

Lemma rstrip_blank (s : string) : blank s = true → Str.rstrip s = "".
Proof.
  induction s as [|c s IH]; cbn; [done|].
  intros [Hc Hs]%andb_prop. by rewrite IH, Hc.
Qed.

Lemma lstrip_app_blank (pre s : string) :
  blank pre = true → Str.lstrip (pre +:+ s) = Str.lstrip s.
Proof.
  induction pre as [|c pre IH]; [done|]. rewrite append_cons. cbn.
  intros [Hc Hs]%andb_prop. rewrite Hc. by apply IH.
Qed.

Lemma rstrip_app_blank (s post : string) :
  blank post = true → Str.rstrip (s +:+ post) = Str.rstrip s.
Proof.
  intros Hp. induction s as [|c s IH]; [by apply rstrip_blank|].
  rewrite append_cons. cbn. by rewrite IH.
Qed.

Lemma strip_app_blank (s post : string) :
  blank post = true → Str.strip (s +:+ post) = Str.strip s.
Proof.
  intros Hp. unfold Str.strip. induction s as [|c s IH].
  - change ("" +:+ post) with post. by rewrite (lstrip_blank post).
  - rewrite append_cons. cbn [Str.lstrip]. destruct (Str.is_space c); [done|].
    rewrite <- append_cons. by apply rstrip_app_blank.
Qed.

Lemma strip_padding (pre s post : string) :
  blank pre = true → blank post = true →
  Str.strip (pre +:+ s +:+ post) = Str.strip s.
Proof.
  intros Hpre Hpost. unfold Str.strip. rewrite lstrip_app_blank by done.
  by apply strip_app_blank.
Qed.

(** What [lstrip] and [rstrip] remove is white space. *)
Lemma lstrip_split (s : string) :
  ∃ pre, blank pre = true ∧ s = pre +:+ Str.lstrip s.
Proof.
  induction s as [|c s (pre & Hb & Hs)]; [by exists ""|]. cbn.
  destruct (Str.is_space c) eqn:Hc; [|by exists ""].
  exists (String c pre). split; [cbn; by rewrite Hc|].
  rewrite append_cons. by f_equal.
Qed.

Lemma rstrip_split (s : string) :
  ∃ post, blank post = true ∧ s = Str.rstrip s +:+ post.
Proof.
  induction s as [|c s (post & Hb & Hs)]; [by exists ""|]. cbn.
  destruct (Str.rstrip s) as [|c' r] eqn:Hr.
  - destruct (Str.is_space c) eqn:Hc.
    + exists (String c post). split; [cbn; by rewrite Hc|].
      change ("" +:+ post) with post in Hs.
      change ("" +:+ String c post) with (String c post). by f_equal.
    + exists post. split; [done|]. rewrite append_cons. by f_equal.
  - exists post. split; [done|]. rewrite append_cons. by f_equal.
Qed.

Lemma strip_split (s : string) :
  ∃ pre post,
    blank pre = true ∧ blank post = true ∧ s = pre +:+ Str.strip s +:+ post.
Proof.
  destruct (lstrip_split s) as (pre & Hpre & Hs).
  destruct (rstrip_split (Str.lstrip s)) as (post & Hpost & Hl).
  exists pre, post. unfold Str.strip. by rewrite <- Hl.
Qed.

Lemma is_space_lower_char (c : ascii) : Str.is_space (Str.lower_char c) = Str.is_space c.
Proof. by destruct c as [[] [] [] [] [] [] [] []]. Qed.

Lemma lower_lstrip (s : string) : Str.lower (Str.lstrip s) = Str.lstrip (Str.lower s).
Proof.
  induction s as [|c s IH]; cbn; [done|]. rewrite is_space_lower_char.
  by destruct (Str.is_space c).
Qed.

Lemma lower_rstrip (s : string) : Str.lower (Str.rstrip s) = Str.rstrip (Str.lower s).
Proof.
  induction s as [|c s IH]; cbn; [done|]. rewrite <- IH, is_space_lower_char.
  destruct (Str.rstrip s); cbn; [by destruct (Str.is_space c)|done].
Qed.

Lemma lower_strip (s : string) : Str.lower (Str.strip s) = Str.strip (Str.lower s).
Proof. unfold Str.strip. by rewrite lower_rstrip, lower_lstrip. Qed.

Lemma lower_char_ascii (c : ascii) :
  (Str.code c <? 128)%nat = true → (Str.code (Str.lower_char c) <? 128)%nat = true.
Proof. by destruct c as [[] [] [] [] [] [] [] []]. Qed.

Lemma is_ascii_lower (s : string) : is_ascii s = true → is_ascii (Str.lower s) = true.
Proof.
  induction s as [|c s IH]; cbn [is_ascii Str.lower]; [done|].
  intros [Hc Hs]%andb_prop. by rewrite lower_char_ascii, IH.
Qed.

Lemma is_ascii_lstrip (s : string) : is_ascii s = true → is_ascii (Str.lstrip s) = true.
Proof.
  induction s as [|c s IH]; cbn [is_ascii Str.lstrip]; [done|].
  intros [Hc Hs]%andb_prop. destruct (Str.is_space c); [by apply IH|].
  cbn [is_ascii]. by rewrite Hc, Hs.
Qed.

Lemma is_ascii_rstrip (s : string) : is_ascii s = true → is_ascii (Str.rstrip s) = true.
Proof.
  induction s as [|c s IH]; cbn [is_ascii Str.rstrip]; [done|].
  intros [Hc Hs]%andb_prop. specialize (IH Hs).
  destruct (Str.rstrip s); cbn [is_ascii] in *;
    [destruct (Str.is_space c); cbn [is_ascii]|]; by rewrite ?Hc, ?IH.
Qed.

Lemma is_ascii_strip (s : string) : is_ascii s = true → is_ascii (Str.strip s) = true.
Proof. intros Hs. by apply is_ascii_rstrip, is_ascii_lstrip. Qed.

Lemma lower_empty (s : string) : Str.lower s = "" → s = "".
Proof. by destruct s. Qed.

(** On ASCII text the interpreter's methods are those of [Str]. *)
Lemma lower_strip_ascii `{PyStr} (m : string) :
  is_ascii m = true → lower (strip m) = Str.lower (Str.strip m).
Proof.
  intros Hm. rewrite (strip_ascii m Hm). by apply lower_ascii, is_ascii_strip.
Qed.

Lemma str_or_nonempty (x : option string) (d : string) : d ≠ "" → str_or x d ≠ "".
Proof. by destruct x as [[|]|]. Qed.

Lemma season_of_ascii `{PyStr} (req : ChatRequest.t) :
  is_ascii (str_or (ChatRequest.season req) "spring") = true →
  season_of req = Str.lower (str_or (ChatRequest.season req) "spring")
  ∧ title (season_of req)
    = Str.title (Str.lower (str_or (ChatRequest.season req) "spring"))
  ∧ is_ascii (season_of req) = true
  ∧ season_of req ≠ "".
Proof.
  intros Ha. unfold season_of. rewrite (lower_ascii _ Ha).
  split; [done|]. split; [by apply title_ascii, is_ascii_lower|].
  split; [by apply is_ascii_lower|].
  intros He%lower_empty. by apply str_or_nonempty in He.
Qed.

(** ** Draws *)

Lemma randbelow_lt (n : nat) (g : Rng) : 0 < n → randbelow n g < n.
Proof.
  intros Hn. unfold randbelow.
  pose proof (N.mod_upper_bound (next_word g) (N.of_nat n)). lia.
Qed.

Lemma pick_elem (seq : list string) (g : Rng) : seq ≠ [] → pick seq g ∈ seq.
Proof.
  intros Hne. unfold pick. apply list_elem_of_In, nth_In, randbelow_lt.
  destruct seq; [done|]. cbn. lia.
Qed.





Lemma Qltb_lt (x y : Q) : Qltb x y = true ↔ (x < y)%Q.
Proof. unfold Qltb, Qlt. apply Z.ltb_lt. Qed.


Lemma float_0_02_lt_0_05 : (float_0_02 < float_0_05)%Q.
Proof. reflexivity. Qed.

(** ** The clock *)

Lemma fallback_page_floor (now : Q) : fallback_page now = (Qfloor now `mod` 7 + 1)%Z.
Proof.
  unfold fallback_page, int_of_float, float_mod. destruct now as [n d].
  cbn [Qnum Qden Qfloor]. f_equal.
  assert (0 ≤ n `mod` (7 * Z.pos d) < 7 * Z.pos d)%Z as Hr
    by (apply Z.mod_pos_bound; lia).
  rewrite Z.quot_div_nonneg by lia.
  rewrite (Z.mul_comm 7), Z.rem_mul_r by lia.
  rewrite Z.add_comm, Z.mul_comm, Z.div_add_l by lia.
  rewrite (Z.div_small (n `mod` Z.pos d)) by (apply Z.mod_pos_bound; lia). lia.
Qed.

Lemma fallback_page_range (now : Q) : (1 ≤ fallback_page now ≤ 7)%Z.
Proof.
  rewrite fallback_page_floor.
  pose proof (Z.mod_pos_bound (Qfloor now) 7). lia.
Qed.

(** ** The tempo table *)

Lemma tempo_of_spec (season : string) : tempo_of season = tempo_spec season.
Proof.
  unfold tempo_of, tempo_spec, SEASON_TEMPOS.
  destruct (String.eqb_spec season "spring") as [->|?]; [reflexivity|].
  destruct (String.eqb_spec season "summer") as [->|?]; [reflexivity|].
  destruct (String.eqb_spec season "autumn") as [->|?]; [reflexivity|].
  destruct (String.eqb_spec season "winter") as [->|?]; [reflexivity|].
  rewrite !lookup_insert_ne by done. by rewrite lookup_singleton_ne.
Qed.

(** ** The reply *)

Lemma surface_cases `{PyStr} (req : ChatRequest.t) (g : Rng) :
  if greets (ChatRequest.message req)
  then surface_of req g = GREETING
  else surface_of req g ∈ SURFACE_VOICE.
Proof.
  unfold surface_of. destruct (greets _); [done|]. by apply pick_elem.
Qed.

Lemma surface_one_line `{PyStr} (req : ChatRequest.t) (g : Rng) :
  first_line (surface_of req g) = surface_of req g.
Proof.
  pose proof (surface_cases req g) as Hs.
  destruct (greets _); [by rewrite Hs|].
  revert Hs. generalize (surface_of req g). apply Forall_forall.
  repeat constructor.
Qed.

Lemma whisper_elem `{PyStr} (req : ChatRequest.t) (g : Rng) :
  whisper_of req g ∈ SUBSURFACE_WHISPERS.
Proof. by apply pick_elem. Qed.

Lemma reply_cases `{PyStr} (req : ChatRequest.t) (g : Rng) :
  reply_of req g =
    surface_of req g +:+ nl +:+ nl +:+ pace_of req
      +:+ (if slip_of req g then nl +:+ nl +:+ whisper_of req g else "").
Proof.
  unfold reply_of. destruct (slip_of req g).
  - by rewrite !append_assoc.
  - rewrite <- !append_assoc. by rewrite append_empty_r.
Qed.

Lemma first_line_reply `{PyStr} (req : ChatRequest.t) (g : Rng) :
  first_line (reply_of req g) = surface_of req g.
Proof. rewrite reply_cases. apply first_line_app, surface_one_line. Qed.


Lemma greets_iff `{PyStr} (m : string) :
  is_ascii m = true →
  greets m = true
  ↔ ∃ pre core post,
      m = pre +:+ core +:+ post
      ∧ blank pre = true ∧ blank post = true
      ∧ Str.lower core ∈ ({[ "hi"; "hello"; "hey" ]} : gset string).
Proof.
  intros Ha. unfold greets. rewrite bool_decide_eq_true, lower_strip_ascii by done.
  split.
  - intros Hin. destruct (strip_split m) as (pre & post & Hpre & Hpost & Hm).
    by exists pre, (Str.strip m), post.
  - intros (pre & core & post & -> & Hpre & Hpost & Hin).
    rewrite strip_padding, lower_strip by done.
    set_unfold. destruct Hin as [[Hc|Hc]|Hc]; rewrite Hc; vm_compute; auto.
Qed.

Lemma slip_of_winter `{PyStr} (req : ChatRequest.t) (g : Rng) :
  slip_of req g = true → slip_of (with_season (Some "winter") req) g = true.
Proof.
  unfold slip_of.
  assert (season_of (with_season (Some "winter") req) = "winter") as ->
    by (unfold season_of; cbn; by rewrite lower_ascii).
  rewrite !Qltb_lt. unfold base_of. case bool_decide; [done|].
  intros Hd. eapply Qlt_trans; [exact Hd|apply float_0_02_lt_0_05].
Qed.

Lemma chat_ext `{PyStr} {S} `{Database S} (r1 r2 : ChatRequest.t) (w : World S) :
  ChatRequest.message r1 = ChatRequest.message r2 →
  season_of r1 = season_of r2 →
  ChatRequest.depth r1 = ChatRequest.depth r2 →
  ChatRequest.username r1 = ChatRequest.username r2 →
  ChatRequest.thread_id r1 = ChatRequest.thread_id r2 →
  chat r1 w = chat r2 w.
Proof.
  intros Hm Hs Hd Hu Ht. unfold chat. fold (season_of r1). fold (season_of r2).
  by rewrite Hm, Hs, Hd, Hu, Ht.
Qed.

(** ** Persistence *)

Lemma persist_page_positive `{PyStr} {S} `{Database S} (req : ChatRequest.t) (now : Q) (s : S) :
  (1 ≤ (persist req now s).1)%Z.
Proof.
  pose proof (fallback_page_range now). unfold persist.
  destruct (create_document _ _ _) as [[id|] s1]; [|cbn; lia].
  destruct (truthy _); [|cbn; lia].
  destruct (get_documents _ _ _) as [[msgs|] s2]; cbn; lia.
Qed.

Lemma persist_created `{PyStr} {S} `{Database S} (req : ChatRequest.t) (now : Q) (s s1 : S)
    (id : string) :
  create_document "chatmessage" (doc_of req) s = (Ok id, s1) →
  persist req now s =
    if truthy (ChatRequest.thread_id req)
    then match get_documents "chatmessage"
                 {[ "thread_id" := ChatRequest.thread_id req ]} s1 with
         | (Ok msgs, s2) => ((Z.of_nat (length msgs) + 1)%Z, s2)
         | (Raise, s2) => (fallback_page now, s2)
         end
    else (1%Z, s1).
Proof. intros Hc. unfold persist. by rewrite Hc. Qed.

Lemma matches_thread (v : option string) (d : ChatMessage.t) :
  matches {[ "thread_id" := v ]} d = bool_decide (v = ChatMessage.thread_id d).
Proof.
  unfold matches. rewrite map_to_list_singleton. cbn. apply andb_true_r.
Qed.

Lemma documents_created (name : string) (d : ChatMessage.t) (s : MemStore) :
  available s = true →
  ∃ id s1,
    mem_create name d s = (Ok id, s1)
    ∧ available s1 = true
    ∧ documents name s1 = documents name s ++ [d].
Proof.
  intros Ha. unfold mem_create. rewrite Ha. eexists _, _.
  split; [reflexivity|]. split; [reflexivity|].
  unfold documents at 1. cbn. by rewrite lookup_insert_eq.
Qed.

(** On the modelled store a thread query returns the documents of the
    collection that carry the thread id. *)
Lemma mem_query_thread (t : option string) (s : MemStore) :
  available s = true →
  mem_query "chatmessage" {[ "thread_id" := t ]} s
  = (Ok (List.filter (λ d, bool_decide (t = ChatMessage.thread_id d))
                     (documents "chatmessage" s)), s).
Proof.
  intros Ha. unfold mem_query. rewrite Ha. do 2 f_equal.
  apply filter_ext. intros d. apply matches_thread.
Qed.

(** On the modelled store: the message is appended to "chatmessage", and
    the count behind the page number includes it. *)
Lemma mem_chat_thread_count `{PyStr} (req : ChatRequest.t) (w : World MemStore) :
  available (store w) = true →
  ∃ resp w',
    chat req w = (Ok resp, w')
    ∧ documents "chatmessage" (store w')
      = documents "chatmessage" (store w) ++ [doc_of req]
    ∧ ChatResponse.page_number resp
      = if truthy (ChatRequest.thread_id req)
        then (Z.of_nat (length (List.filter
                (λ d, bool_decide (ChatRequest.thread_id req = ChatMessage.thread_id d))
                (documents "chatmessage" (store w')))) + 1)%Z
        else 1%Z.
Proof.
  intros Ha.
  destruct (documents_created "chatmessage" (doc_of req) _ Ha) as (id & s1 & Hc & Ha1 & Hd).
  rewrite chat_eq, (persist_created (H0 := MemStore_Database) req (clock w) _ _ _ Hc).
  destruct (truthy _).
  - cbn [get_documents MemStore_Database]. rewrite (mem_query_thread _ _ Ha1).
    eexists _, _. split; [reflexivity|]. by cbn.
  - eexists _, _. split; [reflexivity|]. by cbn.
Qed.

Lemma float_or_zero_eq (d : Q) : (float_or_zero (Some d) == d)%Q.
Proof.
  unfold float_or_zero. destruct (Qeq_bool d 0) eqn:Hz; [|reflexivity].
  symmetry. by apply Qeq_bool_iff.
Qed.

(** ** The diagnostic endpoint *)

Lemma str_take_length (n : nat) (s : string) : String.length (Str.take n s) ≤ n.
Proof.
  revert s. induction n as [|n IH]; intros [|c s]; cbn; try lia.
  specialize (IH s). lia.
Qed.

Lemma str_take_prefix (n : nat) (s : string) : ∃ rest, s = Str.take n s +:+ rest.
Proof.
  revert s. induction n as [|n IH]; intros [|c s]; cbn; try by eexists.
  destruct (IH s) as [rest Hs]. exists rest. rewrite append_cons. by f_equal.
Qed.

Lemma str_take_all (n : nat) (s : string) : String.length s ≤ n → Str.take n s = s.
Proof.
  revert s. induction n as [|n IH]; intros [|c s]; cbn; try done; try lia.
  intros Hn. f_equal. apply IH. lia.
Qed.

(** Runs the statements of [test_database], leaving the dict as the
    updates made to it. *)
Ltac run_probe :=
  cbv beta iota zeta delta
    [test_database getenv mbind mret Stmt_bind Stmt_ret try_as setitem lift
       name_or_connected db_name list_collection_names].

(** * The claims *)

(** C1 (as amended).  When the trimmed, lower-cased message is one of
    "hi", "hello", "hey", the surface line (the first line of the reply,
    which a blank line follows) is the fixed greeting, spelled with the
    typographic apostrophe U+2019 as in the source; for every other
    message it is one of the four lines of [SURFACE_VOICE].  Trimming
    and lower-casing are the interpreter's [strip] and [lower]; on an
    ASCII message they are those of [Str], so that the test holds
    exactly when the message is one of the three words in any letter
    case between ASCII white space. *)
Theorem chat_surface_line `{PyStr} {S} `{Database S} (req : ChatRequest.t) (w : World S) :
  ∃ resp w' rest,
    chat req w = (Ok resp, w')
    ∧ ChatResponse.reply resp
      = first_line (ChatResponse.reply resp) +:+ nl +:+ nl +:+ rest
    ∧ (if bool_decide (lower (strip (ChatRequest.message req))
                         ∈ ({[ "hi"; "hello"; "hey" ]} : gset string))
       then first_line (ChatResponse.reply resp) = "Hello. I’m Gary. I’ll guide you."
       else first_line (ChatResponse.reply resp) ∈ SURFACE_VOICE)
    ∧ 4 ≤ length SURFACE_VOICE
    ∧ (is_ascii (ChatRequest.message req) = true →
       lower (strip (ChatRequest.message req))
       = Str.lower (Str.strip (ChatRequest.message req))
       ∧ (lower (strip (ChatRequest.message req))
            ∈ ({[ "hi"; "hello"; "hey" ]} : gset string)
          ↔ ∃ pre core post,
              ChatRequest.message req = pre +:+ core +:+ post
              ∧ blank pre = true ∧ blank post = true
              ∧ Str.lower core ∈ ({[ "hi"; "hello"; "hey" ]} : gset string))).
Proof.
  rewrite chat_eq. eexists _, _, _. split; [reflexivity|].
  cbn [ChatResponse.reply]. rewrite first_line_reply.
  split; [apply reply_cases|]. split; [apply surface_cases|].
  split; [cbn; lia|]. intros Ha. split; [by apply lower_strip_ascii|].
  rewrite <- (greets_iff _ Ha). unfold greets. by rewrite bool_decide_eq_true.
Qed.


(** C3 (as amended).  The reply is the surface line, a blank line, and
    the sentence "In {season, title-cased}, my pace is {tempo}.": the
    season goes through [str.title], which upper-cases the first letter
    of every word and lower-cases the others ("late summer" gives
    "In Late Summer").  A blank line and one of the four lines of
    [SUBSURFACE_WHISPERS] follow exactly when the slip flag of the
    response is set. *)
Theorem chat_reply_layout `{PyStr} {S} `{Database S} (req : ChatRequest.t) (w : World S) :
  let season := lower (str_or (ChatRequest.season req) "spring") in
  let tempo := default "warm and steady" (SEASON_TEMPOS !! season) in
  ∃ resp w',
    chat req w = (Ok resp, w')
    ∧ (let body :=
         first_line (ChatResponse.reply resp) +:+ nl +:+ nl +:+ "In "
           +:+ title season +:+ ", my pace is " +:+ tempo +:+ "." in
       (ChatResponse.slip resp = true
        ↔ ∃ whisper, whisper ∈ SUBSURFACE_WHISPERS
                     ∧ ChatResponse.reply resp = body +:+ nl +:+ nl +:+ whisper)
       ∧ (ChatResponse.slip resp = false ↔ ChatResponse.reply resp = body)
       ∧ 4 ≤ length SUBSURFACE_WHISPERS)
    ∧ (is_ascii (str_or (ChatRequest.season req) "spring") = true →
       title season = Str.title (Str.lower (str_or (ChatRequest.season req) "spring")))
    ∧ (season = "winter" → title season = "Winter" ∧ tempo = "quiet and precise")
    ∧ (season = "late summer" →
       title season = "Late Summer" ∧ tempo = "warm and steady").
Proof.
  intros season tempo. rewrite chat_eq. eexists _, _. split; [reflexivity|].
  cbn [ChatResponse.reply ChatResponse.slip]. rewrite first_line_reply.
  split.
  - unfold reply_of. fold (pace_of req).
    set (body := surface_of req (rng w) +:+ nl +:+ nl +:+ pace_of req).
    change (surface_of req (rng w) +:+ nl +:+ nl +:+ "In " +:+ title season
              +:+ ", my pace is " +:+ tempo +:+ ".") with body.
    assert (∀ x, body +:+ nl +:+ nl +:+ x ≠ body) as Hne
      by (intros x; by apply append_ne).
    destruct (slip_of req (rng w)); (split; [|split]); try (cbn; lia).
    + split; [|done]. intros _. exists (whisper_of req (rng w)).
      split; [apply whisper_elem|done].
    + split; [done|]. intros Hb. by apply Hne in Hb.
    + split; [done|]. intros (x & _ & Hx). symmetry in Hx. by apply Hne in Hx.
    + done.
  - split; [intros Ha; by apply (season_of_ascii req)|].
    split; intros Hs; unfold tempo; rewrite Hs;
      (split; [by rewrite title_ascii|reflexivity]).
Qed.

(** C4.  The response echoes the normalized season, which is the
    supplied value lower-cased by [str.lower].  The tempo in the reply
    is the table's entry for a recognized season and "warm and steady"
    for any other; a request with season "WINTER" is answered as winter:
    season "winter", tempo "quiet and precise", threshold 0.05. *)
Theorem chat_tempo_default `{PyStr} {S} `{Database S} (req : ChatRequest.t) (w : World S) :
  let season := lower (str_or (ChatRequest.season req) "spring") in
  (∃ resp w' tempo rest,
     chat req w = (Ok resp, w')
     ∧ ChatResponse.season resp = Some season
     ∧ (∀ s, ChatRequest.season req = Some s → s ≠ "" →
             ChatResponse.season resp = Some (lower s))
     ∧ ChatResponse.reply resp
       = first_line (ChatResponse.reply resp) +:+ nl +:+ nl +:+ "In "
           +:+ title season +:+ ", my pace is " +:+ tempo +:+ "." +:+ rest
     ∧ tempo = tempo_spec season
     ∧ (season ∉ ["spring"; "summer"; "autumn"; "winter"] → tempo = "warm and steady")
     ∧ (is_ascii (str_or (ChatRequest.season req) "spring") = true →
        season = Str.lower (str_or (ChatRequest.season req) "spring")
        ∧ title season = Str.title season))
  ∧ (ChatRequest.season req = Some "WINTER" →
     ∃ resp w' rest,
       chat req w = (Ok resp, w')
       ∧ ChatResponse.season resp = Some "winter"
       ∧ ChatResponse.reply resp
         = first_line (ChatResponse.reply resp) +:+ nl +:+ nl
             +:+ "In Winter, my pace is quiet and precise." +:+ rest
       ∧ (ChatResponse.slip resp = true ↔ (draw (rng w) < float_0_05)%Q)).
Proof.
  intros season. split.
  - rewrite chat_eq. eexists _, _, (tempo_of season).
    eexists (if slip_of req (rng w) then _ else _).
    split; [reflexivity|]. cbn [ChatResponse.reply ChatResponse.season].
    split; [done|]. split.
    { intros s Hs Hne. unfold season_of. rewrite Hs. by destruct s. }
    rewrite first_line_reply. split.
    { rewrite reply_cases. unfold pace_of.
      change (season_of req) with season. by rewrite !append_assoc. }
    split; [apply tempo_of_spec|]. split.
    { intros Hnot. rewrite tempo_of_spec. unfold tempo_spec.
      repeat (case String.eqb_spec;
              [intros ->; exfalso; apply Hnot; set_solver|intros _]).
      done. }
    intros Ha. destruct (season_of_ascii req Ha) as (Hs & Ht & Hi & _).
    split; [done|]. by apply title_ascii.
  - intros Hs. rewrite chat_eq. eexists _, _.
    eexists (if slip_of req (rng w) then _ else _).
    split; [reflexivity|].
    cbn [ChatResponse.reply ChatResponse.season ChatResponse.slip].
    assert (season_of req = "winter") as Hw.
    { unfold season_of. rewrite Hs. cbn. by rewrite lower_ascii. }
    split; [by rewrite Hw|]. rewrite first_line_reply. split.
    { rewrite reply_cases. unfold pace_of. rewrite Hw.
      by rewrite title_ascii. }
    unfold slip_of. rewrite Hw. apply Qltb_lt.
Qed.

(** C5 (as amended).  The season of a response is always lower-cased:
    it is what [str.lower] makes of the supplied season, recognized or
    not, and "spring" when the request has no season (or an empty one).
    For an ASCII season this leaves no upper-case letter. *)
Theorem chat_season_lowercase `{PyStr} {S} `{Database S} (req : ChatRequest.t) (w : World S) :
  ∃ resp w' season,
    chat req w = (Ok resp, w')
    ∧ ChatResponse.season resp = Some season
    ∧ season = lower (str_or (ChatRequest.season req) "spring")
    ∧ (truthy (ChatRequest.season req) = false → season = "spring")
    ∧ (∀ s, ChatRequest.season req = Some s → s ≠ "" → season = lower s)
    ∧ (is_ascii (str_or (ChatRequest.season req) "spring") = true →
       season = Str.lower (str_or (ChatRequest.season req) "spring")
       ∧ ∀ c, In c (Stdlib.Strings.String.list_ascii_of_string season) →
              Str.is_upper c = false).
Proof.
  rewrite chat_eq. eexists _, _, _. split; [reflexivity|]. split; [reflexivity|].
  unfold season_of. split; [done|]. split.
  { intros Ht. destruct (ChatRequest.season req) as [[|]|]; try done;
      cbn; by rewrite lower_ascii. }
  split.
  { intros s -> Hne. by destruct s. }
  intros Ha. rewrite (lower_ascii _ Ha). split; [done|]. apply lower_no_upper.
Qed.

(** C6.  Whatever the store does, the handler returns a response and its
    page number is at least 1. *)
Theorem chat_page_number_positive `{PyStr} {S} `{Database S} (req : ChatRequest.t) (w : World S) :
  ∃ resp w', chat req w = (Ok resp, w') ∧ (1 ≤ ChatResponse.page_number resp)%Z.
Proof.
  rewrite chat_eq. eexists _, _. split; [reflexivity|]. apply persist_page_positive.
Qed.

(** C7.  When the create succeeds: with a thread id the page number is
    the number of documents the query for that thread id in
    "chatmessage" returns, plus 1; with none it is 1 and no query is
    made. *)
Theorem chat_page_number_counts_thread `{PyStr} {S} `{Database S}
    (req : ChatRequest.t) (w : World S) (id : string) (s1 : S) :
  create_document "chatmessage" (doc_of req) (store w) = (Ok id, s1) →
  match ChatRequest.thread_id req with
  | Some (String _ _) =>
      ∀ msgs s2,
        get_documents "chatmessage" {[ "thread_id" := ChatRequest.thread_id req ]} s1
        = (Ok msgs, s2) →
        ∃ resp w',
          chat req w = (Ok resp, w')
          ∧ ChatResponse.page_number resp = (Z.of_nat (length msgs) + 1)%Z
          ∧ store w' = s2
  | Some EmptyString | None =>
      ∃ resp w',
        chat req w = (Ok resp, w')
        ∧ ChatResponse.page_number resp = 1%Z
        ∧ store w' = s1
  end.
Proof.
  intros Hc. pose proof (persist_created req (clock w) _ _ _ Hc) as Hp.
  destruct (ChatRequest.thread_id req) as [[|c t]|] eqn:Ht; cbn in Hp.
  - rewrite chat_eq, Hp. by eexists _, _.
  - intros msgs s2 Hq. rewrite Hq in Hp. rewrite chat_eq, Hp. by eexists _, _.
  - rewrite chat_eq, Hp. by eexists _, _.
Qed.

(** C8.  When the create raises, or the thread query raises after it, the
    handler still returns a response; its page number is the clock's
    whole seconds modulo 7, plus 1, hence within 1..7; its reply, slip
    flag and season are those of any run from the same generator,
    whatever store that run has. *)
Theorem chat_store_failure_swallowed `{PyStr} {S} `{Database S}
    (req : ChatRequest.t) (w : World S) :
  (create_document "chatmessage" (doc_of req) (store w)).1 = Raise
  ∨ (∃ id s1,
       create_document "chatmessage" (doc_of req) (store w) = (Ok id, s1)
       ∧ truthy (ChatRequest.thread_id req) = true
       ∧ (get_documents "chatmessage"
            {[ "thread_id" := ChatRequest.thread_id req ]} s1).1 = Raise) →
  ∃ resp w',
    chat req w = (Ok resp, w')
    ∧ ChatResponse.page_number resp = (Qfloor (clock w) `mod` 7 + 1)%Z
    ∧ (1 ≤ ChatResponse.page_number resp ≤ 7)%Z
    ∧ ∀ S2 (D2 : Database S2) (w2 : World S2),
        rng w2 = rng w →
        ∃ resp2 w2',
          chat req w2 = (Ok resp2, w2')
          ∧ ChatResponse.reply resp2 = ChatResponse.reply resp
          ∧ ChatResponse.slip resp2 = ChatResponse.slip resp
          ∧ ChatResponse.season resp2 = ChatResponse.season resp.
Proof.
  intros Hfail. rewrite chat_eq. eexists _, _. split; [reflexivity|].
  cbn [ChatResponse.page_number ChatResponse.reply ChatResponse.slip
         ChatResponse.season].
  assert ((persist req (clock w) (store w)).1 = fallback_page (clock w)) as ->.
  { unfold persist. destruct Hfail as [Hc|(id & s1 & Hc & Ht & Hq)].
    - destruct (create_document _ _ _) as [[?|] ?]; [done|reflexivity].
    - rewrite Hc, Ht. destruct (get_documents _ _ _) as [[?|] ?]; [done|reflexivity]. }
  split; [apply fallback_page_floor|]. split; [apply fallback_page_range|].
  intros S2 D2 w2 Hg. rewrite chat_eq, Hg. by eexists _, _.
Qed.

(** C9.  For a request whose depth, when given, lies in [0, 1], the
    record handed to the store has the request's username, or "visitor"
    when that is absent (or empty); the raw message as content; the
    normalized season; the request's thread id, or none when that is
    absent (or empty); and the request's depth, in [0, 1], or 0 when
    absent. *)
Theorem chat_document_fields `{PyStr} {S} `{Database S} (req : ChatRequest.t) (w : World S) :
  match ChatRequest.depth req with
  | Some d => (0 <= d)%Q ∧ (d <= 1)%Q
  | None => True
  end →
  ∃ doc,
    ChatMessage.username doc
    = match ChatRequest.username req with
      | Some (String c u) => String c u
      | Some EmptyString | None => "visitor"
      end
    ∧ ChatMessage.content doc = ChatRequest.message req
    ∧ ChatMessage.season doc = lower (str_or (ChatRequest.season req) "spring")
    ∧ ChatMessage.thread_id doc
      = match ChatRequest.thread_id req with
        | Some (String c t) => Some (String c t)
        | Some EmptyString | None => None
        end
    ∧ match ChatRequest.depth req with
      | Some d => (ChatMessage.depth doc == d)%Q
      | None => ChatMessage.depth doc = 0%Q
      end
    ∧ ((0 <= ChatMessage.depth doc)%Q ∧ (ChatMessage.depth doc <= 1)%Q)
    ∧ (∃ resp w',
         chat req w = (Ok resp, w')
         ∧ store w'
           = match create_document "chatmessage" doc (store w) with
             | (Ok _, s1) =>
                 if truthy (ChatRequest.thread_id req)
                 then (get_documents "chatmessage"
                         {[ "thread_id" := ChatRequest.thread_id req ]} s1).2
                 else s1
             | (Raise, s1) => s1
             end)
    ∧ (∀ m : World MemStore,
         available (store m) = true →
         ∃ resp m',
           chat req m = (Ok resp, m')
           ∧ documents "chatmessage" (store m')
             = documents "chatmessage" (store m) ++ [doc]).
Proof.
  intros Hrange. exists (doc_of req).
  cbn [doc_of ChatMessage.username ChatMessage.content
    ChatMessage.season ChatMessage.thread_id ChatMessage.depth].
  split; [by destruct (ChatRequest.username req) as [[|]|]|].
  split; [done|]. split; [done|].
  split; [by destruct (ChatRequest.thread_id req) as [[|]|]|].
  split; [destruct (ChatRequest.depth req); [apply float_or_zero_eq|done]|].
  split.
  { destruct (ChatRequest.depth req) as [d|]; [|done].
    rewrite (float_or_zero_eq d). exact Hrange. }
  split.
  - rewrite chat_eq. eexists _, _. split; [reflexivity|].
    cbn [store]. unfold persist. fold (doc_of req).
    destruct (create_document _ _ _) as [[id|] s1]; [|done].
    destruct (truthy _); [|done].
    by destruct (get_documents _ _ _) as [[msgs|] s2].
  - intros m Ha. destruct (mem_chat_thread_count req m Ha) as (resp & m' & Hr & Hd & _).
    by exists resp, m'.
Qed.

(** C10.  An empty season, username or thread id is handled as an
    absent one: the run is the same.  So an empty season is answered
    with "spring", an empty username is stored as "visitor", an empty
    thread id is stored as none and, once the create succeeded, the page
    number is 1 without a query. *)
Theorem chat_empty_as_absent `{PyStr} {S} `{Database S}
    (m : string) (d : option Q) (s u t : option string) (w : World S) :
  let req s u t :=
    {| ChatRequest.message := m;
       ChatRequest.season := s;
       ChatRequest.depth := d;
       ChatRequest.username := u;
       ChatRequest.thread_id := t |} in
  chat (req (Some "") u t) w = chat (req None u t) w
  ∧ chat (req s (Some "") t) w = chat (req s None t) w
  ∧ chat (req s u (Some "")) w = chat (req s u None) w
  ∧ (∃ resp w',
       chat (req (Some "") u t) w = (Ok resp, w')
       ∧ ChatResponse.season resp = Some "spring")
  ∧ (∀ mw : World MemStore,
       available (store mw) = true →
       ∃ resp mw' doc,
         chat (req s (Some "") (Some "")) mw = (Ok resp, mw')
         ∧ documents "chatmessage" (store mw')
           = documents "chatmessage" (store mw) ++ [doc]
         ∧ ChatMessage.username doc = "visitor"
         ∧ ChatMessage.thread_id doc = None
         ∧ ChatResponse.page_number resp = 1%Z)
  ∧ (∀ id s1,
       create_document "chatmessage" (doc_of (req s u (Some ""))) (store w) = (Ok id, s1) →
       ∃ resp w',
         chat (req s u (Some "")) w = (Ok resp, w')
         ∧ ChatResponse.page_number resp = 1%Z
         ∧ store w' = s1).
Proof.
  intros req. rewrite !chat_eq.
  split; [reflexivity|]. split; [reflexivity|]. split; [reflexivity|].
  split.
  { eexists _, _. split; [reflexivity|]. cbn. unfold season_of. cbn.
    by rewrite lower_ascii. }
  split.
  - intros mw Ha.
    destruct (mem_chat_thread_count (req s (Some "") (Some "")) mw Ha)
      as (resp & mw' & Hr & Hd & Hp).
    by exists resp, mw', (doc_of (req s (Some "") (Some ""))).
  - intros id s1 Hc.
    rewrite (persist_created _ (clock w) _ _ _ Hc). by eexists _, _.
Qed.

(** * Further properties of the handlers *)



(** X3.  For a request whose season is ASCII text (or absent), the
    season of the response is not empty, and a request that sends it
    back as its season runs exactly as the original one. *)
Theorem chat_season_round_trip `{PyStr} {S} `{Database S} (req : ChatRequest.t) (w : World S) :
  is_ascii (str_or (ChatRequest.season req) "spring") = true →
  ∃ resp w' season,
    chat req w = (Ok resp, w')
    ∧ ChatResponse.season resp = Some season
    ∧ String.length season ≠ 0
    ∧ chat (with_season (ChatResponse.season resp) req) w = chat req w.
Proof.
  intros Ha. destruct (season_of_ascii req Ha) as (Hs & _ & Hi & Hne).
  rewrite (chat_eq req). eexists _, _, _. split; [reflexivity|].
  split; [reflexivity|]. split.
  - by destruct (season_of req).
  - cbn [ChatResponse.season]. rewrite <- (chat_eq req). apply chat_ext; try done.
    unfold season_of at 1. cbn.
    destruct (season_of req) eqn:Hq; [done|].
    rewrite (lower_ascii _ Hi), Hs. apply lower_idem.
Qed.

(** X4.  Winter only adds slips: when a request is answered with a slip,
    the same request with season "winter", served from the same
    generator, is answered with a slip too. *)
Theorem chat_winter_slips_more `{PyStr} {S} `{Database S}
    (req : ChatRequest.t) (w : World S) (resp : ChatResponse.t) (w' : World S) :
  chat req w = (Ok resp, w') →
  ChatResponse.slip resp = true →
  ∃ resp2 w2,
    chat (with_season (Some "winter") req) w = (Ok resp2, w2)
    ∧ ChatResponse.slip resp2 = true.
Proof.
  rewrite !chat_eq. intros [= <- _] Hs. eexists _, _. split; [reflexivity|].
  by apply slip_of_winter.
Qed.


(** X10.  The reply, the slip flag, the season and the number of words
    read from the generator depend on the request's message and season
    only, and on nothing but the generator in the world: depth,
    username, thread id, clock and store do not matter. *)
Theorem chat_reply_ignores_rest `{PyStr} {S1 S2} `{Database S1} `{Database S2}
    (r1 r2 : ChatRequest.t) (w1 : World S1) (w2 : World S2) :
  ChatRequest.message r1 = ChatRequest.message r2 →
  ChatRequest.season r1 = ChatRequest.season r2 →
  rng w1 = rng w2 →
  ∃ resp1 w1' resp2 w2',
    chat r1 w1 = (Ok resp1, w1')
    ∧ chat r2 w2 = (Ok resp2, w2')
    ∧ ChatResponse.reply resp1 = ChatResponse.reply resp2
    ∧ ChatResponse.slip resp1 = ChatResponse.slip resp2
    ∧ ChatResponse.season resp1 = ChatResponse.season resp2
    ∧ rng w1' = rng w2'.
Proof.
  intros Hm Hs Hg. rewrite !chat_eq. eexists _, _, _, _.
  split; [reflexivity|]. split; [reflexivity|].
  cbn [ChatResponse.reply ChatResponse.slip ChatResponse.season rng].
  unfold reply_of, rng_of, whisper_of, surface_of, rng_surface, slip_of, pace_of,
    season_of.
  by rewrite Hm, Hs, Hg.
Qed.

(** X6.  The endpoint never fails, whatever the handle does; its answer
    has the six keys it started with; and "database_url" and
    "database_name" only tell whether the environment variable holds a
    non-empty value: what the probe wrote there ("✅ Configured", the
    name of the database) never reaches the caller. *)
Theorem test_database_env_only `{PyStr} (db : option Db) (env : gmap string string) :
  ∃ response,
    test_database db env = Returns response
    ∧ dom response
      = ({[ "backend"; "database"; "database_url"; "database_name";
            "connection_status"; "collections" ]} : gset string)
    ∧ response !! "backend" = Some (VStr "✅ Running")
    ∧ response !! "database_url"
      = Some (VStr (if truthy (env !! "DATABASE_URL") then "✅ Set" else "❌ Not Set"))
    ∧ response !! "database_name"
      = Some (VStr (if truthy (env !! "DATABASE_NAME") then "✅ Set" else "❌ Not Set")).
Proof.
  destruct db as [[[|v|e] [names|e']]|]; run_probe;
    (eexists; split; [reflexivity|]);
    (split; [rewrite !dom_insert_L, dom_singleton_L; set_solver|]);
    (split; [by simplify_map_eq|]); split; by simplify_map_eq.
Qed.

(** X7.  "collections" holds at most ten names: the first ten the driver
    lists when the probe gets that far, none otherwise; it is non-empty
    only under the status "✅ Connected & Working". *)
Theorem test_database_collections `{PyStr} (db : option Db) (env : gmap string string) :
  ∃ response shown,
    test_database db env = Returns response
    ∧ response !! "collections" = Some (VList shown)
    ∧ length shown ≤ 10
    ∧ shown
      = match db with
        | Some d =>
            match db_name d, list_collection_names d with
            | Failing _, _ | _, Raises _ => []
            | _, Returns names => take 10 names
            end
        | None => []
        end
    ∧ (shown ≠ [] → response !! "database" = Some (VStr "✅ Connected & Working")).
Proof.
  destruct db as [[[|v|e] [names|e']]|]; run_probe;
    (eexists _, _; split; [reflexivity|]);
    (split; [by simplify_map_eq|]);
    (split; [first [rewrite length_take; lia|cbn; lia]|]);
    (split; [reflexivity|]); intros Hne; try done; by simplify_map_eq.
Qed.

(** X8.  The status "❌ Not Available" the dict starts with is never
    returned.  The status is "⚠️  Available but not initialized" exactly
    when there is no handle.  "connection_status" is "Connected" as soon
    as the handle's name could be looked up, also when listing the
    collections fails, and "Not Connected" otherwise. *)
Theorem test_database_status `{PyStr} (db : option Db) (env : gmap string string) :
  ∃ response status,
    test_database db env = Returns response
    ∧ response !! "database" = Some (VStr status)
    ∧ status ≠ "❌ Not Available"
    ∧ (status = "⚠️  Available but not initialized" ↔ db = None)
    ∧ response !! "connection_status"
      = Some (VStr match db with
                   | Some d =>
                       match db_name d with
                       | Failing _ => "Not Connected"
                       | Present _ | Missing => "Connected"
                       end
                   | None => "Not Connected"
                   end).
Proof.
  destruct db as [[[|v|e] [names|e']]|]; run_probe;
    (eexists _, _; split; [reflexivity|]);
    (split; [by simplify_map_eq|]);
    (split; [intros Heq; vm_compute in Heq; discriminate|]);
    (split; [|by simplify_map_eq]);
    (split; [|done]); try done; intros Heq; vm_compute in Heq; discriminate.
Qed.

(** X9.  Of an exception's text, when it is ASCII, at most the first 50
    characters are reported: after "❌ Error: " when looking up the
    handle's name raised, after "⚠️  Connected but Error: " when the
    name could be looked up and listing the collections raised. *)
Theorem test_database_error_text `{PyStr} (d : Db) (env : gmap string string) (e : string) :
  is_ascii e = true →
  db_name d = Failing e
  ∨ ((∀ e', db_name d ≠ Failing e') ∧ list_collection_names d = Raises e) →
  ∃ response shown rest,
    test_database (Some d) env = Returns response
    ∧ response !! "database"
      = Some (VStr ((match db_name d with
                     | Failing _ => "❌ Error: "
                     | Present _ | Missing => "⚠️  Connected but Error: "
                     end) +:+ shown))
    ∧ e = shown +:+ rest
    ∧ String.length shown ≤ 50
    ∧ (String.length e ≤ 50 → shown = e).
Proof.
  intros Ha Hcase. destruct (str_take_prefix 50 e) as [rest Hrest].
  assert (∃ response,
            test_database (Some d) env = Returns response
            ∧ response !! "database"
              = Some (VStr ((match db_name d with
                             | Failing _ => "❌ Error: "
                             | Present _ | Missing => "⚠️  Connected but Error: "
                             end) +:+ first_chars 50 e))) as (response & Hr & Hd).
  { destruct d as [[|v|e0] [names|e1]];
      destruct Hcase as [Hf|[Hn Hl]]; cbn in *; simplify_eq;
      try (by exfalso; eapply Hn);
      run_probe; (eexists; split; [reflexivity|]); by simplify_map_eq. }
  rewrite (first_chars_ascii _ _ Ha) in Hd.
  exists response, (Str.take 50 e), rest.
  split; [done|]. split; [done|]. split; [done|].
  split; [apply str_take_length|apply str_take_all].
Qed.

(** * Runs on ASCII requests

    From here on the handlers run with the [str] methods of
    [ascii_only]; every request below is ASCII text. *)

#[export] Existing Instance ascii_only.

Example strip_lower_greeting : Str.lower (Str.strip "  HeLLo ") = "hello".
Proof. reflexivity. Qed.

Example title_words : Str.title "late summer's END" = "Late Summer'S End".
Proof. reflexivity. Qed.

Example greeting_bytes : String.length GREETING = 36.
Proof. reflexivity. Qed.

(** The scenario of the spec: "Hello" in winter, no slip (the draw is
    1/2), a reachable store. *)
Example chat_hello_winter :
  (chat {| ChatRequest.message := "Hello";
           ChatRequest.season := Some "winter";
           ChatRequest.depth := None;
           ChatRequest.username := None;
           ChatRequest.thread_id := None |}
        (fresh_world 4503599627370496 0)).1
  = Ok {| ChatResponse.reply :=
            "Hello. I’m Gary. I’ll guide you." +:+ nl +:+ nl
              +:+ "In Winter, my pace is quiet and precise.";
          ChatResponse.slip := false;
          ChatResponse.season := Some "winter";
          ChatResponse.page_number := 1 |}.
Proof. vm_compute. reflexivity. Qed.

(** With the store down the page comes from the clock: 865000001.5 s is
    5.5 modulo 7. *)
Example chat_offline_page :
  (chat (say "tell me about the cradle")
        (offline_world 4503599627370496 (1730000003 # 2))).1
  = Ok {| ChatResponse.reply :=
            "Thanks for stopping by. What can I show you?" +:+ nl +:+ nl
              +:+ "In Spring, my pace is warm and steady.";
          ChatResponse.slip := false;
          ChatResponse.season := Some "spring";
          ChatResponse.page_number := 6 |}.
Proof. vm_compute. reflexivity. Qed.

(** Outside that range nothing is checked: a depth of 5 is stored as
    it is. *)
Example chat_depth_unbounded :
  let req :=
    {| ChatRequest.message := "hello";
       ChatRequest.season := None;
       ChatRequest.depth := Some (5 # 1);
       ChatRequest.username := None;
       ChatRequest.thread_id := None |} in
  ∃ resp w' doc,
    chat req (fresh_world 0 0) = (Ok resp, w')
    ∧ documents "chatmessage" (store w') = [doc]
    ∧ ChatMessage.depth doc = 5 # 1
    ∧ (1 < ChatMessage.depth doc)%Q.
Proof.
  eexists _, _, _. split; [vm_compute; reflexivity|].
  split; [reflexivity|]. split; reflexivity.
Qed.

(** ** Counterexamples *)

(** C1, as stated, fails: the greeting the code sends is not the ASCII
    string of the claim. *)
Lemma chat_greeting_not_ascii :
  Str.lower (Str.strip " Hi ") = "hi"
  ∧ ∃ resp w',
      chat (say " Hi ") (fresh_world 0 0) = (Ok resp, w')
      ∧ first_line (ChatResponse.reply resp) ≠ "Hello. I'm Gary. I'll guide you.".
Proof.
  split; [reflexivity|]. eexists _, _. split; [vm_compute; reflexivity|].
  vm_compute. discriminate.
Qed.

(** C3, as stated, fails: the season is title-cased, not capitalized. *)
Lemma chat_title_not_capitalize :
  let req := with_season (Some "late summer") (say "hello") in
  Str.capitalize "late summer" = "Late summer"
  ∧ ∃ resp w',
      chat req (fresh_world 4503599627370496 0) = (Ok resp, w')
      ∧ ChatResponse.slip resp = false
      ∧ ChatResponse.reply resp
        = "Hello. I’m Gary. I’ll guide you." +:+ nl +:+ nl
            +:+ "In Late Summer, my pace is warm and steady."
      ∧ ChatResponse.reply resp
        ≠ first_line (ChatResponse.reply resp) +:+ nl +:+ nl +:+ "In "
            +:+ Str.capitalize "late summer" +:+ ", my pace is "
            +:+ "warm and steady" +:+ ".".
Proof.
  split; [reflexivity|]. eexists _, _. split; [vm_compute; reflexivity|].
  split; [reflexivity|]. split; [reflexivity|]. vm_compute. discriminate.
Qed.

(** C5, as stated, fails: an unrecognized season is not replaced by
    "spring". *)
Lemma chat_season_not_defaulted :
  let req :=
    {| ChatRequest.message := "hello";
       ChatRequest.season := Some "Monsoon";
       ChatRequest.depth := None;
       ChatRequest.username := None;
       ChatRequest.thread_id := None |} in
  SEASON_TEMPOS !! Str.lower "Monsoon" = None
  ∧ ∃ resp w',
      chat req (fresh_world 0 0) = (Ok resp, w')
      ∧ ChatResponse.season resp = Some "monsoon"
      ∧ ChatResponse.season resp ≠ Some "spring".
Proof.
  split; [reflexivity|]. eexists _, _. split; [vm_compute; reflexivity|].
  split; [reflexivity|]. cbn. discriminate.
Qed.

(** ** Witnesses *)

(** Witness for C4: the request "hello" with season "WINTER". *)
Lemma chat_tempo_default_witness :
  let req :=
    {| ChatRequest.message := "hello";
       ChatRequest.season := Some "WINTER";
       ChatRequest.depth := None;
       ChatRequest.username := None;
       ChatRequest.thread_id := None |} in
  ChatRequest.season req = Some "WINTER"
  ∧ ∃ resp w' rest,
      chat req (fresh_world 0 0) = (Ok resp, w')
      ∧ ChatResponse.season resp = Some "winter"
      ∧ ChatResponse.reply resp
        = first_line (ChatResponse.reply resp) +:+ nl +:+ nl
            +:+ "In Winter, my pace is quiet and precise." +:+ rest
      ∧ (ChatResponse.slip resp = true ↔ (draw (rng (fresh_world 0 0)) < float_0_05)%Q).
Proof.
  intros req. split; [reflexivity|].
  exact (proj2 (chat_tempo_default req (fresh_world 0 0)) eq_refl).
Defined.

(** Witness for C7: a first message in thread "t1" on an empty store;
    the query returns the message just stored, so the page is 2. *)
Lemma chat_page_number_counts_thread_witness :
  let req :=
    {| ChatRequest.message := "tell me about the cradle";
       ChatRequest.season := None;
       ChatRequest.depth := None;
       ChatRequest.username := None;
       ChatRequest.thread_id := Some "t1" |} in
  let w := fresh_world 0 0 in
  ∃ id s1 msgs,
    create_document "chatmessage" (doc_of req) (store w) = (Ok id, s1)
    ∧ get_documents "chatmessage" {[ "thread_id" := Some "t1" ]} s1 = (Ok msgs, s1)
    ∧ ∃ resp w',
        chat req w = (Ok resp, w')
        ∧ ChatResponse.page_number resp = (Z.of_nat (length msgs) + 1)%Z
        ∧ store w' = s1.
Proof.
  intros req w. eexists _, _, _.
  split; [reflexivity|]. split; [reflexivity|].
  exact (chat_page_number_counts_thread req w _ _ eq_refl _ _ eq_refl).
Defined.

(** Witness for C8: the store is down. *)
Lemma chat_store_failure_swallowed_witness :
  let req := say "tell me about the cradle" in
  let w := offline_world 0 (1730000003 # 2) in
  ((create_document "chatmessage" (doc_of req) (store w)).1 = Raise
   ∨ (∃ id s1,
        create_document "chatmessage" (doc_of req) (store w) = (Ok id, s1)
        ∧ truthy (ChatRequest.thread_id req) = true
        ∧ (get_documents "chatmessage"
             {[ "thread_id" := ChatRequest.thread_id req ]} s1).1 = Raise))
  ∧ ∃ resp w',
      chat req w = (Ok resp, w')
      ∧ ChatResponse.page_number resp = (Qfloor (clock w) `mod` 7 + 1)%Z
      ∧ (1 ≤ ChatResponse.page_number resp ≤ 7)%Z
      ∧ ∀ S2 (D2 : Database S2) (w2 : World S2),
          rng w2 = rng w →
          ∃ resp2 w2',
            chat req w2 = (Ok resp2, w2')
            ∧ ChatResponse.reply resp2 = ChatResponse.reply resp
            ∧ ChatResponse.slip resp2 = ChatResponse.slip resp
            ∧ ChatResponse.season resp2 = ChatResponse.season resp.
Proof.
  intros req w. split; [left; reflexivity|].
  exact (chat_store_failure_swallowed req w (or_introl eq_refl)).
Defined.

(** Witness for C9: a named visitor half-way down the scroll. *)
Lemma chat_document_fields_witness :
  let req :=
    {| ChatRequest.message := "tell me about the cradle";
       ChatRequest.season := Some "Autumn";
       ChatRequest.depth := Some (1 # 2);
       ChatRequest.username := Some "ada";
       ChatRequest.thread_id := Some "t1" |} in
  let w := fresh_world 0 0 in
  ((0 <= 1 # 2)%Q ∧ (1 # 2 <= 1)%Q)
  ∧ ∃ doc,
      ChatMessage.username doc = "ada"
      ∧ ChatMessage.content doc = "tell me about the cradle"
      ∧ ChatMessage.season doc = lower "Autumn"
      ∧ ChatMessage.thread_id doc = Some "t1"
      ∧ (ChatMessage.depth doc == 1 # 2)%Q
      ∧ ((0 <= ChatMessage.depth doc)%Q ∧ (ChatMessage.depth doc <= 1)%Q)
      ∧ (∃ resp w',
           chat req w = (Ok resp, w')
           ∧ store w'
             = match create_document "chatmessage" doc (store w) with
               | (Ok _, s1) =>
                   if truthy (ChatRequest.thread_id req)
                   then (get_documents "chatmessage"
                           {[ "thread_id" := ChatRequest.thread_id req ]} s1).2
                   else s1
               | (Raise, s1) => s1
               end)
      ∧ (∀ m : World MemStore,
           available (store m) = true →
           ∃ resp m',
             chat req m = (Ok resp, m')
             ∧ documents "chatmessage" (store m')
               = documents "chatmessage" (store m) ++ [doc]).
Proof.
  intros req w.
  assert ((0 <= 1 # 2)%Q ∧ (1 # 2 <= 1)%Q) as Hrange by (split; discriminate).
  split; [exact Hrange|]. exact (chat_document_fields req w Hrange).
Defined.



(** Witness for X3: the season "Autumn". *)
Lemma chat_season_round_trip_witness :
  let req := with_season (Some "Autumn") (say "hello") in
  is_ascii (str_or (ChatRequest.season req) "spring") = true
  ∧ ∃ resp w' season,
      chat req (fresh_world 0 0) = (Ok resp, w')
      ∧ ChatResponse.season resp = Some season
      ∧ String.length season ≠ 0
      ∧ chat (with_season (ChatResponse.season resp) req) (fresh_world 0 0)
        = chat req (fresh_world 0 0).
Proof.
  intros req. split; [reflexivity|].
  exact (chat_season_round_trip req (fresh_world 0 0) eq_refl).
Defined.

(** Witness for X4: the draw 0 slips in every season. *)
Lemma chat_winter_slips_more_witness :
  ∃ resp w',
    chat (say "hello") (fresh_world 0 0) = (Ok resp, w')
    ∧ ChatResponse.slip resp = true
    ∧ ∃ resp2 w2,
        chat (with_season (Some "winter") (say "hello")) (fresh_world 0 0)
        = (Ok resp2, w2)
        ∧ ChatResponse.slip resp2 = true.
Proof.
  eexists _, _. split; [vm_compute; reflexivity|]. split; [reflexivity|].
  exact (chat_winter_slips_more (say "hello") (fresh_world 0 0) _ _ eq_refl eq_refl).
Defined.

(** Witness for X10: a named visitor in a thread with a reachable store,
    and an anonymous one with the store down. *)
Lemma chat_reply_ignores_rest_witness :
  let r1 :=
    {| ChatRequest.message := "tell me about the cradle";
       ChatRequest.season := Some "Autumn";
       ChatRequest.depth := Some (1 # 2);
       ChatRequest.username := Some "ada";
       ChatRequest.thread_id := Some "t1" |} in
  let r2 := with_season (Some "Autumn") (say "tell me about the cradle") in
  let w1 := fresh_world 7 0 in
  let w2 := offline_world 7 (1730000003 # 2) in
  ChatRequest.message r1 = ChatRequest.message r2
  ∧ ChatRequest.season r1 = ChatRequest.season r2
  ∧ rng w1 = rng w2
  ∧ ∃ resp1 w1' resp2 w2',
      chat r1 w1 = (Ok resp1, w1')
      ∧ chat r2 w2 = (Ok resp2, w2')
      ∧ ChatResponse.reply resp1 = ChatResponse.reply resp2
      ∧ ChatResponse.slip resp1 = ChatResponse.slip resp2
      ∧ ChatResponse.season resp1 = ChatResponse.season resp2
      ∧ rng w1' = rng w2'.
Proof.
  intros r1 r2 w1 w2. split; [reflexivity|]. split; [reflexivity|].
  split; [reflexivity|].
  exact (chat_reply_ignores_rest r1 r2 w1 w2 eq_refl eq_refl eq_refl).
Defined.

(** Witness for X9: listing the collections raises a text of 61
    characters. *)
Lemma test_database_error_text_witness :
  let d :=
    {| db_name := Present "scroll";
       list_collection_names :=
         Raises "0123456789012345678901234567890123456789012345678901234567890" |} in
  let e := "0123456789012345678901234567890123456789012345678901234567890" in
  is_ascii e = true
  ∧ (db_name d = Failing e
     ∨ ((∀ e', db_name d ≠ Failing e') ∧ list_collection_names d = Raises e))
  ∧ ∃ response shown rest,
      test_database (Some d) ∅ = Returns response
      ∧ response !! "database"
        = Some (VStr ((match db_name d with
                       | Failing _ => "❌ Error: "
                       | Present _ | Missing => "⚠️  Connected but Error: "
                       end) +:+ shown))
      ∧ e = shown +:+ rest
      ∧ String.length shown ≤ 50
      ∧ (String.length e ≤ 50 → shown = e).
Proof.
  intros d e.
  assert (db_name d = Failing e
          ∨ ((∀ e', db_name d ≠ Failing e') ∧ list_collection_names d = Raises e))
    as Hcase by (right; split; [discriminate|reflexivity]).
  split; [reflexivity|]. split; [exact Hcase|].
  exact (test_database_error_text d ∅ e eq_refl Hcase).
Defined.
